(** * Calculadora CLT Pro: the calculation engine of src/lib/calculator.ts

    A shallow embedding of the payroll engine (the two progressive tax
    look-ups and the salary, vacation, overtime and termination
    settlements) and the properties of its specification.

    Numbers.  A TypeScript [number] is modelled as an exact rational
    ([Q]): every constant of the source is a decimal literal and the
    engine only adds, subtracts, multiplies, divides by non-zero
    constants and compares, so each result is a rational function of
    the inputs.  This is the reading of the specification, whose
    monetary quantities are real numbers; binary64 rounding is left
    out, except in the module [Binary64] at the end of the
    definitions, which evaluates the two tax look-ups on IEEE doubles
    at the inputs where a verdict below could be suspected to depend
    on rounding.  Numeric equality is [==] ([Qeq]).

    Integers.  Quantities that the source keeps integral (calendar
    fields, millisecond time stamps, day and month counts) are in [Z];
    [Math.floor], [Math.ceil], [Math.abs], [Math.max] and [%] act on
    them as in JavaScript ([%] truncates: [Z.rem]). *)

From Stdlib Require Import QArith Qround ZArith Bool Lia Lqa Floats.

Local Open Scope Z_scope.
Local Open Scope Q_scope.

(** ** Numbers *)

Definition number : Type := Q.

(** The comparison [<=] of the source, as a boolean. *)
Definition num_le (x y : number) : bool := Qle_bool x y.

Declare Scope num_scope.
Delimit Scope num_scope with num.
Infix "<=?" := num_le (at level 70, no associativity) : num_scope.
Local Open Scope num_scope.

(** An integral [number] seen as a rational. *)
Definition of_int (z : Z) : number := inject_Z z.

(** ** The progressive tables *)

(** [calculateINSS], lines 29-35: the 2024/2025 contribution table. *)
Definition calculateINSS (salary : number) : number :=
  if salary <=? 1412 then salary * 0.075
  else if salary <=? 2666.68 then (salary - 1412) * 0.09 + 105.9
  else if salary <=? 4000.03 then (salary - 2666.68) * 0.12 + 105.9 + 112.92
  else if salary <=? 7786.02 then
    (salary - 4000.03) * 0.14 + 105.9 + 112.92 + 160.00
  else 908.85.

(** [calculateIRRF], lines 38-45: the income-tax table.  The default
    [dependents = 0] of the source is written out at the call sites. *)
Definition calculateIRRF (salary inss dependents : number) : number :=
  let base := salary - inss - (dependents * 189.59) in
  if base <=? 2259.20 then 0
  else if base <=? 2826.65 then (base * 0.075) - 169.44
  else if base <=? 3751.05 then (base * 0.15) - 381.44
  else if base <=? 4664.68 then (base * 0.225) - 662.77
  else (base * 0.275) - 896.00.

(** ** Salary settlement *)

Module Salary.

Record SalaryResult : Type := mkSalaryResult {
  grossSalary : number;
  inss : number;
  irrf : number;
  netSalary : number;
  fgts : number;
  discounts : number
}.

(** [calculateSalary], lines 47-61. *)
Definition calculateSalary (grossSalary dependents otherDiscounts : number)
  : SalaryResult :=
  let inss := calculateINSS grossSalary in
  let irrf := calculateIRRF grossSalary inss dependents in
  let fgts := grossSalary * 0.08 in
  let netSalary := grossSalary - inss - irrf - otherDiscounts in
  {| grossSalary := grossSalary;
     inss := inss;
     irrf := irrf;
     netSalary := netSalary;
     fgts := fgts;
     discounts := inss + irrf + otherDiscounts |}.

End Salary.

(** ** Vacation settlement *)

Module Vacation.

(** The two optional fields are assigned on every path of
    [calculateVacation] (0 when no days are sold), so they are plain
    fields here. *)
Record VacationResult : Type := mkVacationResult {
  baseSalary : number;
  vacationValue : number;
  oneThirdBonus : number;
  grossTotal : number;
  inss : number;
  irrf : number;
  netTotal : number;
  abonoPecuniario : number;
  abonoOneThird : number
}.

(** [calculateVacation], lines 63-105.  The two [let] variables that
    the source overwrites under [if (sellTenDays)] are the pair
    [abono]. *)
Definition calculateVacation
    (salary days : number) (sellTenDays : bool)
    (dependents unusedVacationDays bonuses : number) : VacationResult :=
  let baseForVacation := salary + bonuses in
  let dailyRate := baseForVacation / 30 in
  let vacationValue := dailyRate * days in
  let oneThirdBonus := vacationValue / 3 in
  let unusedVacationValue := dailyRate * unusedVacationDays in
  let unusedVacationOneThird := unusedVacationValue / 3 in
  let abono : number * number :=
    if sellTenDays then (dailyRate * 10, (dailyRate * 10) / 3)
    else (0, 0) in
  let abonoPecuniario := fst abono in
  let abonoOneThird := snd abono in
  let currentGross := vacationValue + oneThirdBonus in
  let inss := calculateINSS currentGross in
  let irrf := calculateIRRF currentGross inss dependents in
  {| baseSalary := baseForVacation;
     vacationValue := vacationValue + unusedVacationValue;
     oneThirdBonus := oneThirdBonus + unusedVacationOneThird;
     grossTotal := currentGross + unusedVacationValue
                   + unusedVacationOneThird + abonoPecuniario
                   + abonoOneThird;
     inss := inss;
     irrf := irrf;
     netTotal := (currentGross - inss - irrf) + unusedVacationValue
                 + unusedVacationOneThird + abonoPecuniario
                 + abonoOneThird;
     abonoPecuniario := abonoPecuniario;
     abonoOneThird := abonoOneThird |}.

End Vacation.

(** ** Overtime *)

Module Overtime.

Record OvertimeResult : Type := mkOvertimeResult {
  hourlyRate : number;
  overtimeValue : number;
  totalValue : number
}.

(** [calculateOvertime], lines 107-122.  The source divides by
    [monthlyHours] with no guard.  At [monthlyHours = 0] JavaScript
    yields [Infinity] or [NaN], which are no rationals ([/] of [Q]
    yields 0 there): every statement about this function assumes
    that [monthlyHours] is not 0.  The default [percentage = 50] is
    written out at the call sites. *)
Definition calculateOvertime
    (salary monthlyHours overtimeHours percentage : number)
  : OvertimeResult :=
  let hourlyRate := salary / monthlyHours in
  let overtimeRate := hourlyRate * (1 + percentage / 100) in
  let overtimeValue := overtimeRate * overtimeHours in
  {| hourlyRate := hourlyRate;
     overtimeValue := overtimeValue;
     totalValue := overtimeValue |}.

End Overtime.

(** ** Termination settlement *)

Module Termination.

(** What [calculateTermination] observes of a JavaScript [Date]: its
    time stamp in milliseconds and three calendar fields in local
    time ([getMonth] counts from 0).  How the host derives the
    calendar fields from the time stamp (the time zone) is outside
    the engine; the record carries the four observations. *)
Record Date : Type := mkDate {
  getTime : Z;
  getFullYear : Z;
  getMonth : Z;
  getDate : Z
}.

(** The string-literal union of line 137. *)
Inductive TerminationType : Type :=
| sem_justa_causa    (* 'sem-justa-causa' *)
| com_justa_causa    (* 'com-justa-causa' *)
| pedido_demissao    (* 'pedido-demissao' *)
| comum_acordo.      (* 'comum-acordo' *)

(** [===] on the type tags. *)
Definition type_eqb (a b : TerminationType) : bool :=
  match a, b with
  | sem_justa_causa, sem_justa_causa
  | com_justa_causa, com_justa_causa
  | pedido_demissao, pedido_demissao
  | comum_acordo, comum_acordo => true
  | _, _ => false
  end.

(** [noticePeriod] and [fgtsFine] are assigned on every path. *)
Record TerminationResult : Type := mkTerminationResult {
  salaryBalance : number;
  proportionalThirteenth : number;
  proportionalVacation : number;
  vacationOneThird : number;
  noticePeriod : number;
  fgtsFine : number;
  grossTotal : number;
  inss : number;
  irrf : number;
  netTotal : number
}.

(** Lines 150-151: elapsed days, rounded up. *)
Definition diffDaysTotal (startDate endDate : Date) : Z :=
  let diffTime := Z.abs (getTime endDate - getTime startDate) in
  Qceiling (of_int diffTime / of_int (1000 * 60 * 60 * 24)).

(** Lines 161-173: the month count of the 13th salary.  The variable
    is updated in place by [++] and [--]; each update is a
    rebinding. *)
Definition thirteenthMonths (startDate endDate : Date) : Z :=
  let endDay := getDate endDate in
  let endMonth := (getMonth endDate + 1)%Z in
  let thirteenthMonths :=
    if (getFullYear endDate =? getFullYear startDate)%Z then
      let startMonth := (getMonth startDate + 1)%Z in
      let startDay := getDate startDate in
      let thirteenthMonths := (endMonth - startMonth)%Z in
      let thirteenthMonths :=
        if (startDay <=? 15)%Z then (thirteenthMonths + 1)%Z
        else thirteenthMonths in
      let thirteenthMonths :=
        if (endDay <? 15)%Z then (thirteenthMonths - 1)%Z
        else thirteenthMonths in
      thirteenthMonths
    else
      if (endDay >=? 15)%Z then endMonth else (endMonth - 1)%Z in
  Z.max 0 thirteenthMonths.

(** Lines 178-180: the month count of the proportional vacation. *)
Definition finalVacationMonths (startDate endDate : Date) : Z :=
  let diffDaysTotal := diffDaysTotal startDate endDate in
  let vacationMonths := Qfloor (of_int diffDaysTotal / 30) in
  let remainingDays := Z.rem diffDaysTotal 30 in
  if (remainingDays >=? 15)%Z then (vacationMonths + 1)%Z
  else vacationMonths.

(** Lines 189-198: notice period and fund fine by termination type. *)
Definition indemnities (type : TerminationType)
    (baseSalary fgtsBalance : number) : number * number :=
  if type_eqb type sem_justa_causa then
    (baseSalary, fgtsBalance * 0.4)
  else if type_eqb type comum_acordo then
    (baseSalary * 0.5, fgtsBalance * 0.2)
  else (0, 0).

(** [calculateTermination], lines 139-218. *)
Definition calculateTermination
    (salary : number) (startDate endDate : Date) (type : TerminationType)
    (fgtsBalance unusedVacationDays bonuses : number) : TerminationResult :=
  let baseSalary := salary + bonuses in
  let endDay := getDate endDate in
  let salaryBalance := (baseSalary / 30) * of_int endDay in
  let proportionalThirteenth :=
    (baseSalary / 12) * of_int (thirteenthMonths startDate endDate) in
  let finalVacationMonths := finalVacationMonths startDate endDate in
  let proportionalVacation :=
    (baseSalary / 12) * of_int (Z.rem finalVacationMonths 12) in
  let vacationOneThird := proportionalVacation / 3 in
  let unusedVacationValue := (baseSalary / 30) * unusedVacationDays in
  let unusedVacationOneThird := unusedVacationValue / 3 in
  let noticePeriod := fst (indemnities type baseSalary fgtsBalance) in
  let fgtsFine := snd (indemnities type baseSalary fgtsBalance) in
  let grossTotal :=
    salaryBalance + proportionalThirteenth + proportionalVacation
    + vacationOneThird + unusedVacationValue + unusedVacationOneThird
    + noticePeriod + fgtsFine in
  let taxableAmount := salaryBalance + proportionalThirteenth in
  let inss := calculateINSS taxableAmount in
  let irrf := calculateIRRF taxableAmount inss 0 in
  {| salaryBalance := salaryBalance;
     proportionalThirteenth := proportionalThirteenth;
     proportionalVacation := proportionalVacation + unusedVacationValue;
     vacationOneThird := vacationOneThird + unusedVacationOneThird;
     noticePeriod := noticePeriod;
     fgtsFine := fgtsFine;
     grossTotal := grossTotal;
     inss := inss;
     irrf := irrf;
     netTotal := grossTotal - inss - irrf |}.

End Termination.

(** ** The wording of the specification, for comparison *)

Module Spec.
Import Termination.

(** Section 4.3: the taxable base, the local [base] of
    [calculateIRRF]. *)
Definition taxableBase (salary inss dependents : number) : number :=
  salary - inss - (dependents * 189.59).

(** [monthOf]: the calendar month, counted from 1. *)
Definition monthOf (d : Date) : Z := (getMonth d + 1)%Z.

(** Section 4.7, step 3, before the clamp: same year, the difference
    of the months, one more when the start day is at most 15, one
    less when the end day is under 15; otherwise the end month when
    the end day is at least 15, else the end month less one. *)
Definition thirteenth_months_spec (startDate endDate : Date) : Z :=
  if (getFullYear endDate =? getFullYear startDate)%Z then
    (monthOf endDate - monthOf startDate
     + (if (getDate startDate <=? 15)%Z then 1 else 0)
     - (if (getDate endDate <? 15)%Z then 1 else 0))%Z
  else
    if (15 <=? getDate endDate)%Z then monthOf endDate
    else (monthOf endDate - 1)%Z.

(** Section 4.7, step 4: whole 30-day months of the elapsed days,
    one more when the remainder is at least 15 (mathematical floor
    and modulus). *)
Definition vacation_months_spec (totalDays : Z) : Z :=
  (totalDays / 30 + (if 15 <=? totalDays mod 30 then 1 else 0))%Z.

End Spec.

(** ** The tax look-ups on IEEE doubles *)

Module Binary64.
Import PrimFloat.
Local Open Scope float_scope.
#[local] Set Warnings "-inexact-float".

(** [calculateINSS] with every literal rounded to the nearest double
    and every operation rounded as binary64 does. *)
Definition calculateINSS (salary : float) : float :=
  if salary <=? 1412 then salary * 0.075
  else if salary <=? 2666.68 then (salary - 1412) * 0.09 + 105.9
  else if salary <=? 4000.03 then
    (salary - 2666.68) * 0.12 + 105.9 + 112.92
  else if salary <=? 7786.02 then
    (salary - 4000.03) * 0.14 + 105.9 + 112.92 + 160.00
  else 908.85.

(** [calculateIRRF], likewise. *)
Definition calculateIRRF (salary inss dependents : float) : float :=
  let base := salary - inss - (dependents * 189.59) in
  if base <=? 2259.20 then 0
  else if base <=? 2826.65 then (base * 0.075) - 169.44
  else if base <=? 3751.05 then (base * 0.15) - 381.44
  else if base <=? 4664.68 then (base * 0.225) - 662.77
  else (base * 0.275) - 896.00.

(** The boundaries of the contribution table and the least double
    above the first income-tax threshold. *)
Definition tier2_top : float := 2666.68.
Definition tier3_top : float := 4000.03.
Definition tier4_top : float := 7786.02.
Definition ceiling : float := 908.85.
Definition least_taxable : float := next_up 2259.20.

#[local] Set Warnings "inexact-float".
End Binary64.

(** * Properties *)

(** ** Comparisons *)

Lemma num_le_true (x y : number) : (x <=? y) = true <-> x <= y.
Proof. unfold num_le. apply Qle_bool_iff. Qed.

Lemma num_le_false (x y : number) : (x <=? y) = false <-> y < x.
Proof.
  unfold num_le. split; intro H.
  - apply Qnot_le_lt. intro Hle. apply Qle_bool_iff in Hle. congruence.
  - destruct (Qle_bool x y) eqn:E; [|reflexivity].
    apply Qle_bool_iff in E. exfalso. apply (Qlt_not_le _ _ H E).
Qed.

(** Splits on every tier test in the goal and turns the outcomes into
    order facts. *)
Ltac tiers :=
  repeat match goal with
         | |- context [num_le ?x ?y] =>
             let E := fresh "T" in
             destruct (num_le x y) eqn:E;
             [apply num_le_true in E | apply num_le_false in E]
         end.

(** The comparisons and the two look-ups see a rational only up to
    [==]: the model does not depend on how a number is written as a
    fraction. *)
#[global] Instance num_le_Proper : Proper (Qeq ==> Qeq ==> eq) num_le.
Proof.
  intros x x' Hx y y' Hy. unfold num_le.
  apply Qleb_comp; assumption.
Qed.

#[global] Instance calculateINSS_Proper : Proper (Qeq ==> Qeq) calculateINSS.
Proof.
  intros x x' Hx. unfold calculateINSS.
  rewrite !(num_le_Proper x x' Hx _ _ (Qeq_refl _)).
  tiers; try rewrite Hx; reflexivity.
Qed.

#[global] Instance calculateIRRF_Proper :
  Proper (Qeq ==> Qeq ==> Qeq ==> Qeq) calculateIRRF.
Proof.
  intros s s' Hs i i' Hi d d' Hd. unfold calculateIRRF. cbv zeta.
  assert (Hb : s - i - d * 189.59 == s' - i' - d' * 189.59)
    by (rewrite Hs, Hi, Hd; reflexivity).
  set (b := s - i - d * 189.59) in *.
  set (b' := s' - i' - d' * 189.59) in *.
  rewrite !(num_le_Proper b b' Hb _ _ (Qeq_refl _)).
  tiers; try rewrite Hb; reflexivity.
Qed.

(** ** The contribution table *)

(** Below the first threshold the contribution is the flat rate. *)
Lemma calculateINSS_tier1 (salary : number) :
  salary <= 1412 -> calculateINSS salary == salary * 0.075.
Proof.
  intro H. unfold calculateINSS.
  apply num_le_true in H. rewrite H. reflexivity.
Qed.

(** Above the last threshold it is the constant of the last branch. *)
Lemma calculateINSS_above (salary : number) :
  7786.02 < salary -> calculateINSS salary == 908.85.
Proof.
  intro H. unfold calculateINSS. tiers; try reflexivity; lra.
Qed.

(** The contribution of a non-negative base is non-negative. *)
Lemma calculateINSS_nonneg (salary : number) :
  0 <= salary -> 0 <= calculateINSS salary.
Proof.
  intro H. unfold calculateINSS. tiers; lra.
Qed.

(** The least upper bound of the contribution: the value of the
    fourth branch at its own threshold. *)
Lemma calculateINSS_le_max (salary : number) :
  calculateINSS salary <= 908.8586.
Proof.
  unfold calculateINSS. tiers; lra.
Qed.

(** Where the fourth branch stays under the constant of the last one. *)
Lemma calculateINSS_le_ceiling_below (salary : number) :
  salary <= 7785.95 -> calculateINSS salary <= 908.85.
Proof.
  intro H. unfold calculateINSS. tiers; lra.
Qed.

(** C1.  The contribution at the five documented boundaries.  At
    1412.00 and at 100000 it is the documented 105.90 and 908.85.  At
    2666.68, 4000.03 and 7786.02 the branch that applies is the one
    ending there, and it yields 218.8212, 378.822 and 908.8586: not
    the 218.82, 378.82 and 908.85 that the next branch starts from
    and that the specification documents. *)
Theorem calculateINSS_at_boundaries :
  calculateINSS 1412.00 == 105.90 /\
  calculateINSS 2666.68 == 218.8212 /\
  calculateINSS 4000.03 == 378.822 /\
  calculateINSS 7786.02 == 908.8586 /\
  calculateINSS 100000 == 908.85 /\
  ~ calculateINSS 2666.68 == 218.82 /\
  ~ calculateINSS 4000.03 == 378.82 /\
  ~ calculateINSS 7786.02 == 908.85.
Proof.
  repeat split; try reflexivity; intro H; vm_compute in H; discriminate H.
Qed.

(** Every base from 7785.96 up to the last threshold pays more than
    the constant of the last branch. *)
Lemma calculateINSS_above_ceiling_range (salary : number) :
  7785.96 <= salary <= 7786.02 -> 908.85 < calculateINSS salary.
Proof.
  intros [Hlo Hhi]. unfold calculateINSS. tiers; lra.
Qed.

(** C4.  The contribution is not capped at 908.85: at the top
    boundary 7786.02 the fourth branch returns 908.8586, above the
    constant that the last branch returns as the ceiling, and that
    value is the greatest the function takes. *)
Theorem calculateINSS_exceeds_ceiling :
  908.85 < calculateINSS 7786.02 /\
  calculateINSS 7786.02 == 908.8586 /\
  (forall salary, calculateINSS salary <= calculateINSS 7786.02).
Proof.
  split; [reflexivity | split; [reflexivity |]].
  intro salary.
  assert (E : calculateINSS 7786.02 == 908.8586) by reflexivity.
  rewrite E. apply calculateINSS_le_max.
Qed.

(** ** The income-tax table *)

Import Spec.

(** No branch of the table is negative where it applies. *)
Lemma calculateIRRF_nonneg (salary inss dependents : number) :
  0 <= calculateIRRF salary inss dependents.
Proof.
  unfold calculateIRRF. cbv zeta.
  set (base := salary - inss - dependents * 189.59).
  tiers; lra.
Qed.

(** In the second tier the tax is the affine formula, and it is
    strictly positive: the formula vanishes at 2259.20 exactly. *)
Lemma calculateIRRF_tier2 (salary inss dependents : number) :
  2259.20 < taxableBase salary inss dependents <= 2826.65 ->
  calculateIRRF salary inss dependents
    == taxableBase salary inss dependents * 0.075 - 169.44 /\
  0 < calculateIRRF salary inss dependents.
Proof.
  unfold calculateIRRF, taxableBase. cbv zeta.
  set (base := salary - inss - dependents * 189.59).
  intros [Hlo Hhi]. tiers; lra.
Qed.

(** C5, refuted.  No input makes the income tax negative: there is no
    salary, contribution and number of dependents at which
    [calculateIRRF] returns a strictly negative amount. *)
Lemma calculateIRRF_never_negative :
  ~ (exists salary inss dependents : number,
        calculateIRRF salary inss dependents < 0).
Proof.
  intros (salary & inss & dependents & H).
  pose proof (calculateIRRF_nonneg salary inss dependents) as Hge.
  apply (Qlt_not_le _ _ H Hge).
Qed.

(** In the first tier the tax is exactly zero. *)
Lemma calculateIRRF_tier1 (salary inss dependents : number) :
  taxableBase salary inss dependents <= 2259.20 ->
  calculateIRRF salary inss dependents == 0.
Proof.
  unfold calculateIRRF, taxableBase. cbv zeta.
  intro H. apply num_le_true in H. rewrite H. reflexivity.
Qed.

(** C5, amended.  For every salary, contribution and number of
    dependents the income tax is non-negative, although no branch is
    clamped: the first tier is exactly zero and the affine formula of
    each later tier is non-negative on the whole of its tier. *)
Theorem calculateIRRF_is_nonnegative :
  forall salary inss dependents : number,
    0 <= calculateIRRF salary inss dependents.
Proof.
  intros salary inss dependents.
  unfold calculateIRRF. cbv zeta.
  set (base := salary - inss - dependents * 189.59).
  destruct (base <=? 2259.20) eqn:T1; [apply Qle_refl |].
  apply num_le_false in T1. tiers; lra.
Qed.

(** ** Salary settlement *)

(** C6.  The salary breakdown: the net salary is the gross salary less
    the contribution, the income tax and the other discounts, so the
    four add up to the gross salary again; [discounts] is the sum of
    the three deductions and [fgts] is 8% of the gross salary.  The
    contribution and the tax are those of the two tables.  It holds
    for every input, the non-negative ones included. *)
Theorem calculateSalary_invariant :
  forall grossSalary dependents otherDiscounts : number,
    let r := Salary.calculateSalary grossSalary dependents otherDiscounts in
    Salary.netSalary r
      == grossSalary - Salary.inss r - Salary.irrf r - otherDiscounts /\
    Salary.netSalary r + Salary.inss r + Salary.irrf r + otherDiscounts
      == grossSalary /\
    Salary.discounts r == Salary.inss r + Salary.irrf r + otherDiscounts /\
    Salary.fgts r == 0.08 * grossSalary /\
    Salary.inss r == calculateINSS grossSalary /\
    Salary.irrf r
      == calculateIRRF grossSalary (calculateINSS grossSalary) dependents.
Proof.
  intros grossSalary dependents otherDiscounts r.
  subst r. unfold Salary.calculateSalary. cbn.
  repeat split; try reflexivity; ring.
Qed.

(** ** Vacation settlement *)

Section VacationFacts.
Import Vacation.

Variables (salary days : number) (sellTenDays : bool).
Variables (dependents bonuses : number).

Let dailyRate : number := (salary + bonuses) / 30.

(** The taxes of the vacation settlement ignore the unused days. *)
Lemma calculateVacation_taxes_frame (u u' : number) :
  inss (calculateVacation salary days sellTenDays dependents u bonuses)
  = inss (calculateVacation salary days sellTenDays dependents u' bonuses)
  /\
  irrf (calculateVacation salary days sellTenDays dependents u bonuses)
  = irrf (calculateVacation salary days sellTenDays dependents u' bonuses).
Proof. split; reflexivity. Qed.

(** The two vacation fields carry the unused days as well. *)
Lemma calculateVacation_fields (u : number) :
  let r := calculateVacation salary days sellTenDays dependents u bonuses in
  vacationValue r == dailyRate * days + dailyRate * u /\
  oneThirdBonus r == (dailyRate * days) / 3 + (dailyRate * u) / 3.
Proof. split; reflexivity. Qed.

(** The totals move by the unused payout and its third. *)
Lemma calculateVacation_totals (u : number) :
  let r := calculateVacation salary days sellTenDays dependents u bonuses in
  let r0 := calculateVacation salary days sellTenDays dependents 0 bonuses in
  grossTotal r == grossTotal r0 + u * dailyRate * 4 / 3 /\
  netTotal r == netTotal r0 + u * dailyRate * 4 / 3.
Proof.
  unfold calculateVacation, dailyRate. cbn.
  split; field.
Qed.

End VacationFacts.

(** C2, refuted.  With 3000 of salary, 30 days taken and 15 unused
    days, [vacationValue] is 4500 and [oneThirdBonus] is 1500, not the
    3000 and 1000 of the current period alone. *)
Lemma calculateVacation_fields_not_current_only :
  let r := Vacation.calculateVacation 3000 30 false 0 15 0 in
  let dailyRate := (3000 + 0) / 30 in
  Vacation.vacationValue r == 4500 /\
  Vacation.oneThirdBonus r == 1500 /\
  ~ Vacation.vacationValue r == dailyRate * 30 /\
  ~ Vacation.oneThirdBonus r == (dailyRate * 30) / 3.
Proof.
  cbv zeta.
  repeat split; try reflexivity; intro H; vm_compute in H; discriminate H.
Qed.

(** C2, amended.  For every input, [vacationValue] is the value of the
    days taken plus the value of the unused days, both at the daily
    rate (salary + bonuses) / 30, and [oneThirdBonus] is one third of
    each, added; with no unused days the two fields are the
    current-period amounts alone. *)
Theorem calculateVacation_value_and_bonus :
  forall (salary days : number) (sellTenDays : bool)
         (dependents unusedVacationDays bonuses : number),
    let dailyRate := (salary + bonuses) / 30 in
    let r := Vacation.calculateVacation salary days sellTenDays dependents
               unusedVacationDays bonuses in
    let r0 := Vacation.calculateVacation salary days sellTenDays dependents
                0 bonuses in
    Vacation.vacationValue r
      == dailyRate * days + dailyRate * unusedVacationDays /\
    Vacation.oneThirdBonus r
      == (dailyRate * days) / 3 + (dailyRate * unusedVacationDays) / 3 /\
    Vacation.vacationValue r0 == dailyRate * days /\
    Vacation.oneThirdBonus r0 == (dailyRate * days) / 3.
Proof.
  intros salary days sellTenDays dependents unusedVacationDays bonuses.
  cbv zeta.
  pose proof (calculateVacation_fields salary days sellTenDays dependents
                bonuses unusedVacationDays) as [Hv Hb].
  pose proof (calculateVacation_fields salary days sellTenDays dependents
                bonuses 0) as [Hv0 Hb0].
  split; [exact Hv | split; [exact Hb | split]].
  - rewrite Hv0. ring.
  - rewrite Hb0. field.
Qed.

(** C8.  The unused days leave the contribution and the income tax of
    the vacation settlement as they are with no unused days, and raise
    the gross and the net total each by exactly
    u * dailyRate * 4/3, with dailyRate = (salary + bonuses) / 30.
    This holds for every u, the non-negative ones included. *)
Theorem calculateVacation_unused_days_frame :
  forall (salary days : number) (sellTenDays : bool)
         (dependents bonuses u : number),
    let dailyRate := (salary + bonuses) / 30 in
    let r := Vacation.calculateVacation salary days sellTenDays dependents
               u bonuses in
    let r0 := Vacation.calculateVacation salary days sellTenDays dependents
                0 bonuses in
    Vacation.inss r == Vacation.inss r0 /\
    Vacation.irrf r == Vacation.irrf r0 /\
    Vacation.grossTotal r == Vacation.grossTotal r0 + u * dailyRate * 4 / 3 /\
    Vacation.netTotal r == Vacation.netTotal r0 + u * dailyRate * 4 / 3.
Proof.
  intros salary days sellTenDays dependents bonuses u. cbv zeta.
  destruct (calculateVacation_taxes_frame salary days sellTenDays dependents
              bonuses u 0) as [Hi Hr].
  destruct (calculateVacation_totals salary days sellTenDays dependents
              bonuses u) as [Hg Hn].
  rewrite Hi, Hr.
  split; [reflexivity | split; [reflexivity | split; assumption]].
Qed.

(** ** Termination settlement *)

Section TerminationFacts.
Import Termination.

(** The elapsed days are a non-negative integer. *)
Lemma diffDaysTotal_nonneg (startDate endDate : Date) :
  (0 <= diffDaysTotal startDate endDate)%Z.
Proof.
  unfold diffDaysTotal. cbv zeta.
  set (diffTime := Z.abs (getTime endDate - getTime startDate)).
  assert (Hd : (0 <= diffTime)%Z) by apply Z.abs_nonneg.
  change 0%Z with (Qceiling 0).
  apply Qceiling_resp_le.
  apply Qle_shift_div_l; [reflexivity |].
  rewrite Qmult_0_l. unfold of_int.
  change (0 : Q) with (inject_Z 0).
  rewrite <- Zle_Qle. exact Hd.
Qed.

(** On whole days, [Math.floor] of the quotient is the integer
    quotient. *)
Lemma floor_div_30 (d : Z) : Qfloor (of_int d / 30) = (d / 30)%Z.
Proof.
  unfold of_int. change (30 : Q) with (inject_Z 30).
  symmetry. apply Zdiv_Qdiv.
Qed.

(** The vacation month count of the source is the one of the
    specification, taken on the elapsed days. *)
Lemma finalVacationMonths_spec (startDate endDate : Date) :
  finalVacationMonths startDate endDate
  = vacation_months_spec (diffDaysTotal startDate endDate).
Proof.
  unfold finalVacationMonths, vacation_months_spec. cbv zeta.
  pose proof (diffDaysTotal_nonneg startDate endDate) as Hd.
  set (d := diffDaysTotal startDate endDate) in *.
  rewrite floor_div_30.
  rewrite Z.rem_mod_nonneg by lia.
  rewrite Z.geb_leb.
  destruct (15 <=? d mod 30)%Z; lia.
Qed.

Lemma vacation_months_spec_nonneg (d : Z) :
  (0 <= d)%Z -> (0 <= vacation_months_spec d)%Z.
Proof.
  intro Hd. unfold vacation_months_spec.
  assert (0 <= d / 30)%Z by (apply Z.div_pos; lia).
  destruct (15 <=? d mod 30)%Z; lia.
Qed.

(** [% 12] on the month count is the mathematical modulus. *)
Lemma finalVacationMonths_rem (startDate endDate : Date) :
  Z.rem (finalVacationMonths startDate endDate) 12
  = (vacation_months_spec (diffDaysTotal startDate endDate) mod 12)%Z.
Proof.
  rewrite finalVacationMonths_spec.
  apply Z.rem_mod_nonneg; [| lia].
  apply vacation_months_spec_nonneg, diffDaysTotal_nonneg.
Qed.

(** The 13th-salary month count of the source is the clamped count
    of the specification. *)
Lemma thirteenthMonths_spec (startDate endDate : Date) :
  thirteenthMonths startDate endDate
  = Z.max 0 (thirteenth_months_spec startDate endDate).
Proof.
  unfold thirteenthMonths, thirteenth_months_spec, monthOf. cbv zeta.
  f_equal.
  destruct (getFullYear endDate =? getFullYear startDate)%Z.
  - destruct (getDate startDate <=? 15)%Z, (getDate endDate <? 15)%Z; lia.
  - rewrite Z.geb_leb. reflexivity.
Qed.

(** The indemnities, by case on the type. *)
Lemma indemnities_cases (baseSalary fgtsBalance : number) :
  indemnities sem_justa_causa baseSalary fgtsBalance
    = (baseSalary, fgtsBalance * 0.4) /\
  indemnities comum_acordo baseSalary fgtsBalance
    = (baseSalary * 0.5, fgtsBalance * 0.2) /\
  indemnities com_justa_causa baseSalary fgtsBalance = (0, 0) /\
  indemnities pedido_demissao baseSalary fgtsBalance = (0, 0).
Proof. repeat split. Qed.

End TerminationFacts.

(** C3, refuted.  A contract from 2023-01-01 to 2023-07-20 (midnight
    UTC read on a host in UTC: 200 days, 7 vacation months) at a
    salary of 3000 with 10 unused days:
    [proportionalVacation] is 2750 and [vacationOneThird] is 2750/3,
    not the 1750 = (3000/12) * 7 and 1750/3 of the proportional
    vacation alone. *)
Lemma calculateTermination_vacation_not_proportional_only :
  let startDate := Termination.mkDate 1672531200000 2023 0 1 in
  let endDate := Termination.mkDate 1689811200000 2023 6 20 in
  let r := Termination.calculateTermination 3000 startDate endDate
             Termination.sem_justa_causa 0 10 0 in
  let months := vacation_months_spec
                  (Termination.diffDaysTotal startDate endDate) in
  months = 7%Z /\
  Termination.proportionalVacation r == 2750 /\
  ~ Termination.proportionalVacation r
      == ((3000 + 0) / 12) * of_int (months mod 12) /\
  ~ Termination.vacationOneThird r
      == (((3000 + 0) / 12) * of_int (months mod 12)) / 3.
Proof.
  cbv zeta.
  split; [reflexivity | split; [reflexivity | split]];
    intro H; vm_compute in H; discriminate H.
Qed.

(** C3, amended.  For every input, with base = salary + bonuses and
    the month count floor(totalDays/30), plus 1 when totalDays mod 30
    is at least 15, [proportionalVacation] is
    (base/12) * (months mod 12) plus the unused-vacation payout
    (base/30) * unusedVacationDays, and [vacationOneThird] is one
    third of each, added; with no unused days the two fields are the
    proportional amounts alone. *)
Theorem calculateTermination_vacation_fields :
  forall (salary : number) (startDate endDate : Termination.Date)
         (type : Termination.TerminationType)
         (fgtsBalance unusedVacationDays bonuses : number),
    let base := salary + bonuses in
    let totalDays := Termination.diffDaysTotal startDate endDate in
    let months := vacation_months_spec totalDays in
    let r := Termination.calculateTermination salary startDate endDate type
               fgtsBalance unusedVacationDays bonuses in
    let r0 := Termination.calculateTermination salary startDate endDate type
                fgtsBalance 0 bonuses in
    Termination.proportionalVacation r
      == (base / 12) * of_int (months mod 12)
         + (base / 30) * unusedVacationDays /\
    Termination.vacationOneThird r
      == ((base / 12) * of_int (months mod 12)) / 3
         + ((base / 30) * unusedVacationDays) / 3 /\
    Termination.proportionalVacation r0
      == (base / 12) * of_int (months mod 12) /\
    Termination.vacationOneThird r0
      == ((base / 12) * of_int (months mod 12)) / 3.
Proof.
  intros salary startDate endDate type fgtsBalance unusedVacationDays
    bonuses.
  cbv zeta. unfold Termination.calculateTermination. cbn.
  rewrite finalVacationMonths_rem.
  split; [reflexivity | split; [reflexivity | split]].
  - ring.
  - field.
Qed.

(** C7.  The contribution and the income tax of the termination
    settlement are those of the salary balance plus the proportional
    13th salary, with no dependents; the net total is the gross total
    less the two.  The type, the fund balance and the unused days have
    no part in either tax. *)
Theorem calculateTermination_taxes :
  forall (salary : number) (startDate endDate : Termination.Date)
         (type : Termination.TerminationType)
         (fgtsBalance unusedVacationDays bonuses : number),
    let r := Termination.calculateTermination salary startDate endDate type
               fgtsBalance unusedVacationDays bonuses in
    let taxBase := Termination.salaryBalance r
                   + Termination.proportionalThirteenth r in
    Termination.inss r == calculateINSS taxBase /\
    Termination.irrf r == calculateIRRF taxBase (Termination.inss r) 0 /\
    Termination.netTotal r
      == Termination.grossTotal r - Termination.inss r - Termination.irrf r /\
    (forall (type' : Termination.TerminationType)
            (fgtsBalance' unusedVacationDays' : number),
        let r' := Termination.calculateTermination salary startDate endDate
                    type' fgtsBalance' unusedVacationDays' bonuses in
        Termination.inss r' = Termination.inss r /\
        Termination.irrf r' = Termination.irrf r).
Proof.
  intros salary startDate endDate type fgtsBalance unusedVacationDays
    bonuses.
  cbv zeta. unfold Termination.calculateTermination. cbn.
  split; [reflexivity | split; [reflexivity | split; [reflexivity |]]].
  intros type' fgtsBalance' unusedVacationDays'. split; reflexivity.
Qed.

(** C9.  The notice period and the fund fine follow the table of the
    four types, with base = salary + bonuses: without just cause
    (base, 0.4 * fgtsBalance); mutual agreement
    (0.5 * base, 0.2 * fgtsBalance); just cause and resignation
    (0, 0). *)
Theorem calculateTermination_indemnities :
  forall (salary : number) (startDate endDate : Termination.Date)
         (fgtsBalance unusedVacationDays bonuses : number),
    let base := salary + bonuses in
    let result type :=
      Termination.calculateTermination salary startDate endDate type
        fgtsBalance unusedVacationDays bonuses in
    (Termination.noticePeriod (result Termination.sem_justa_causa) == base /\
     Termination.fgtsFine (result Termination.sem_justa_causa)
       == 0.4 * fgtsBalance) /\
    (Termination.noticePeriod (result Termination.comum_acordo)
       == 0.5 * base /\
     Termination.fgtsFine (result Termination.comum_acordo)
       == 0.2 * fgtsBalance) /\
    (Termination.noticePeriod (result Termination.com_justa_causa) == 0 /\
     Termination.fgtsFine (result Termination.com_justa_causa) == 0) /\
    (Termination.noticePeriod (result Termination.pedido_demissao) == 0 /\
     Termination.fgtsFine (result Termination.pedido_demissao) == 0).
Proof.
  intros salary startDate endDate fgtsBalance unusedVacationDays bonuses.
  cbv zeta. unfold Termination.calculateTermination. cbv zeta.
  destruct (indemnities_cases (salary + bonuses) fgtsBalance)
    as (Es & Ea & Ec & Ep).
  cbn [Termination.noticePeriod Termination.fgtsFine].
  rewrite Es, Ea, Ec, Ep. cbn [fst snd].
  split; [split; [reflexivity | ring] |].
  split; [split; ring |].
  split; split; reflexivity.
Qed.

(** C10.  The month count of the 13th salary is the one of the
    specification (same year: the difference of the months, plus 1
    when the start day is at most 15, less 1 when the end day is under
    15; otherwise the end month when the end day is at least 15, else
    the end month less 1), clamped at 0, and the proportional 13th
    salary is ((salary + bonuses) / 12) times that count. *)
Theorem calculateTermination_thirteenth :
  forall (salary : number) (startDate endDate : Termination.Date)
         (type : Termination.TerminationType)
         (fgtsBalance unusedVacationDays bonuses : number),
    let months := Z.max 0 (thirteenth_months_spec startDate endDate) in
    let r := Termination.calculateTermination salary startDate endDate type
               fgtsBalance unusedVacationDays bonuses in
    Termination.thirteenthMonths startDate endDate = months /\
    (0 <= months)%Z /\
    Termination.proportionalThirteenth r
      == ((salary + bonuses) / 12) * of_int months.
Proof.
  intros salary startDate endDate type fgtsBalance unusedVacationDays
    bonuses.
  cbv zeta. unfold Termination.calculateTermination. cbn.
  rewrite thirteenthMonths_spec.
  split; [reflexivity | split; [apply Z.le_max_l | reflexivity]].
Qed.

(** ** The same verdicts on IEEE doubles *)

Section Binary64Facts.
Import PrimFloat.
Local Open Scope float_scope.
#[local] Set Warnings "-inexact-float".

(** On doubles too the branches ending at 2666.68, 4000.03 and
    7786.02 return more than 218.82, 378.82 and 908.85 there, and the
    last of them exceeds the constant of the ceiling branch. *)
Lemma binary64_calculateINSS_boundaries :
  (218.82 <? Binary64.calculateINSS Binary64.tier2_top) = true /\
  (378.82 <? Binary64.calculateINSS Binary64.tier3_top) = true /\
  (Binary64.ceiling <? Binary64.calculateINSS Binary64.tier4_top) = true /\
  (Binary64.calculateINSS 100000 =? Binary64.ceiling) = true.
Proof. vm_compute. repeat split. Qed.

(** At 1412 the double product 1412 * 0.075 is the double just under
    105.9: on doubles the first boundary value is off by one unit in
    the last place. *)
Lemma binary64_calculateINSS_1412 :
  Binary64.calculateINSS 1412 = next_down 105.9.
Proof. vm_compute. reflexivity. Qed.

(** At the least double above 2259.20 the income tax on doubles is
    still positive (about 2.8e-14): rounding does not push the second
    tier below zero at its lower edge. *)
Lemma binary64_calculateIRRF_lower_edge :
  (2259.20 <? Binary64.least_taxable) = true /\
  (0 <? Binary64.calculateIRRF Binary64.least_taxable 0 0) = true /\
  (Binary64.calculateIRRF 2259.20 0 0 =? 0) = true.
Proof. vm_compute. repeat split. Qed.

#[local] Set Warnings "inexact-float".
End Binary64Facts.

(** * Further properties of the engine *)

(** ** The contribution table: growth and rates *)

(** X1.  The contribution never drops by more than 0.0086 when the
    base grows: it is non-decreasing inside each tier, and the only
    drops are the steps just above 2666.68, 4000.03 and 7786.02, the
    last being the largest. *)
Theorem calculateINSS_monotone_up_to_step :
  forall x y : number,
    x <= y -> calculateINSS x <= calculateINSS y + 0.0086.
Proof.
  intros x y Hxy. unfold calculateINSS. tiers; lra.
Qed.

Lemma calculateINSS_monotone_up_to_step_witness :
  2666.68 <= 2666.685 /\
  calculateINSS 2666.68 <= calculateINSS 2666.685 + 0.0086.
Proof.
  split; [vm_compute; discriminate |].
  apply (calculateINSS_monotone_up_to_step 2666.68 2666.685).
  vm_compute; discriminate.
Defined.

(** X2.  For a non-negative base the contribution is non-negative and
    at most 14% of the base; it is at least 7.5% of the base unless it
    is the constant 908.85 of the last branch. *)
Theorem calculateINSS_effective_rate :
  forall salary : number,
    0 <= salary ->
    0 <= calculateINSS salary <= salary * 0.14 /\
    (salary * 0.075 <= calculateINSS salary \/
     calculateINSS salary == 908.85).
Proof.
  intros salary H0. unfold calculateINSS.
  tiers; (split; [lra | ]); first [left; lra | right; reflexivity].
Qed.

Lemma calculateINSS_effective_rate_witness :
  0 <= 3000 /\
  (0 <= calculateINSS 3000 <= 3000 * 0.14 /\
   (3000 * 0.075 <= calculateINSS 3000 \/ calculateINSS 3000 == 908.85)).
Proof.
  split; [vm_compute; discriminate |].
  apply (calculateINSS_effective_rate 3000). vm_compute; discriminate.
Defined.

(** ** The income-tax table: what it depends on *)

(** Two calls with equal taxable bases return equal taxes. *)
Lemma calculateIRRF_Proper_base (s i d s' i' d' : number) :
  s - i - d * 189.59 == s' - i' - d' * 189.59 ->
  calculateIRRF s i d == calculateIRRF s' i' d'.
Proof.
  intro Hb. unfold calculateIRRF. cbv zeta.
  set (b := s - i - d * 189.59) in *.
  set (b' := s' - i' - d' * 189.59) in *.
  rewrite !(num_le_Proper b b' Hb _ _ (Qeq_refl _)).
  tiers; try rewrite Hb; reflexivity.
Qed.

(** X3.  The income tax depends on its three arguments only through
    the taxable base salary - inss - dependents * 189.59: it is the tax
    of that base with no contribution and no dependents.  So one more
    dependent is worth 189.59 less of salary. *)
Theorem calculateIRRF_depends_on_taxable_base :
  forall salary inss dependents : number,
    calculateIRRF salary inss dependents
      == calculateIRRF (taxableBase salary inss dependents) 0 0 /\
    calculateIRRF salary inss (dependents + 1)
      == calculateIRRF (salary - 189.59) inss dependents.
Proof.
  intros salary inss dependents. unfold taxableBase. split.
  - apply calculateIRRF_Proper_base. ring.
  - apply calculateIRRF_Proper_base. ring.
Qed.

(** X4.  The income tax never exceeds 27.5% of a non-negative taxable
    base. *)
Theorem calculateIRRF_at_most_top_rate :
  forall salary inss dependents : number,
    0 <= taxableBase salary inss dependents ->
    calculateIRRF salary inss dependents
      <= taxableBase salary inss dependents * 0.275.
Proof.
  intros salary inss dependents. unfold calculateIRRF, taxableBase.
  cbv zeta. set (base := salary - inss - dependents * 189.59).
  intro H0. tiers; lra.
Qed.

Lemma calculateIRRF_at_most_top_rate_witness :
  0 <= taxableBase 5000 500 1 /\
  calculateIRRF 5000 500 1 <= taxableBase 5000 500 1 * 0.275.
Proof.
  split; [vm_compute; discriminate |].
  apply (calculateIRRF_at_most_top_rate 5000 500 1).
  vm_compute; discriminate.
Defined.

(** X5.  A smaller taxable base never pays more than 0.00125 above
    what a larger one pays: the tax is non-decreasing inside each tier
    and drops by at most that much at the thresholds 2826.65 and
    3751.05.  In particular a higher contribution or more dependents
    never raise the tax by more than 0.00125. *)
Theorem calculateIRRF_monotone_up_to_step :
  forall s i d s' i' d' : number,
    taxableBase s i d <= taxableBase s' i' d' ->
    calculateIRRF s i d <= calculateIRRF s' i' d' + 0.00125.
Proof.
  intros s i d s' i' d'. unfold calculateIRRF, taxableBase. cbv zeta.
  set (b := s - i - d * 189.59). set (b' := s' - i' - d' * 189.59).
  intro Hb. tiers; lra.
Qed.

Lemma calculateIRRF_monotone_up_to_step_witness :
  taxableBase 2826.65 0 0 <= taxableBase 2826.66 0 0 /\
  calculateIRRF 2826.65 0 0 <= calculateIRRF 2826.66 0 0 + 0.00125.
Proof.
  split; [vm_compute; discriminate |].
  apply (calculateIRRF_monotone_up_to_step 2826.65 0 0 2826.66 0 0).
  vm_compute; discriminate.
Defined.

(** ** Salary settlement: the size of the deductions *)

(** The contribution of a non-negative base lies between 0 and 14% of
    it. *)
Lemma calculateINSS_effective_rate_aux (salary : number) :
  0 <= salary ->
  0 <= calculateINSS salary /\ calculateINSS salary <= salary * 0.14.
Proof.
  intro H0. unfold calculateINSS. tiers; split; lra.
Qed.

(** The contribution and the tax of a non-negative base with
    non-negative dependents take at most 37.65% of it together. *)
Lemma taxes_at_most_share (base dependents : number) :
  0 <= base -> 0 <= dependents ->
  0 <= calculateINSS base /\
  0 <= calculateIRRF base (calculateINSS base) dependents /\
  calculateINSS base + calculateIRRF base (calculateINSS base) dependents
    <= base * 0.3765.
Proof.
  intros Hb Hd.
  destruct (calculateINSS_effective_rate_aux base Hb) as [Hi0 Hi].
  pose proof (calculateIRRF_nonneg base (calculateINSS base) dependents)
    as Hr0.
  split; [exact Hi0 | split; [exact Hr0 |]].
  revert Hr0. unfold calculateIRRF. cbv zeta.
  set (c := calculateINSS base) in *.
  set (t := base - c - dependents * 189.59).
  assert (Ht : t <= base - c) by (unfold t; lra).
  tiers; intros _; lra.
Qed.

(** X6.  For a non-negative gross salary and non-negative dependents,
    the contribution and the income tax are non-negative and take at
    most 37.65% of the gross salary together, so the net salary lies
    between 62.35% of the gross salary less the other discounts and
    the gross salary less the other discounts. *)
Theorem calculateSalary_deductions_bounded :
  forall grossSalary dependents otherDiscounts : number,
    0 <= grossSalary -> 0 <= dependents ->
    let r := Salary.calculateSalary grossSalary dependents otherDiscounts in
    0 <= Salary.inss r /\
    0 <= Salary.irrf r /\
    Salary.inss r + Salary.irrf r <= grossSalary * 0.3765 /\
    grossSalary * 0.6235 - otherDiscounts <= Salary.netSalary r /\
    Salary.netSalary r <= grossSalary - otherDiscounts.
Proof.
  intros grossSalary dependents otherDiscounts Hg Hd r. subst r.
  unfold Salary.calculateSalary. cbn.
  destruct (taxes_at_most_share grossSalary dependents Hg Hd)
    as (Hi & Hr & Hsum).
  set (c := calculateINSS grossSalary) in *.
  set (t := calculateIRRF grossSalary c dependents) in *.
  split; [exact Hi | split; [exact Hr | split; [exact Hsum |]]].
  split; lra.
Qed.

Lemma calculateSalary_deductions_bounded_witness :
  0 <= 5000 /\ 0 <= 2 /\
  (let r := Salary.calculateSalary 5000 2 100 in
   0 <= Salary.inss r /\
   0 <= Salary.irrf r /\
   Salary.inss r + Salary.irrf r <= 5000 * 0.3765 /\
   5000 * 0.6235 - 100 <= Salary.netSalary r /\
   Salary.netSalary r <= 5000 - 100).
Proof.
  split; [vm_compute; discriminate | split; [vm_compute; discriminate |]].
  apply (calculateSalary_deductions_bounded 5000 2 100);
    vm_compute; discriminate.
Defined.

(** ** Vacation settlement: how the result adds up *)

(** X7.  The gross total of the vacation settlement is the sum of the
    four amounts the result lists ([vacationValue], [oneThirdBonus],
    [abonoPecuniario], [abonoOneThird]), and the net total is the gross
    total less the contribution and the income tax. *)
Theorem calculateVacation_totals_add_up :
  forall (salary days : number) (sellTenDays : bool)
         (dependents unusedVacationDays bonuses : number),
    let r := Vacation.calculateVacation salary days sellTenDays dependents
               unusedVacationDays bonuses in
    Vacation.grossTotal r
      == Vacation.vacationValue r + Vacation.oneThirdBonus r
         + Vacation.abonoPecuniario r + Vacation.abonoOneThird r /\
    Vacation.netTotal r
      == Vacation.grossTotal r - Vacation.inss r - Vacation.irrf r.
Proof.
  intros salary days sellTenDays dependents unusedVacationDays bonuses r.
  subst r. unfold Vacation.calculateVacation. cbn.
  split; ring.
Qed.

(** X8.  Selling ten days leaves the contribution and the income tax
    as they are, sets the allowance to a third of the base and its
    bonus to a ninth, and raises the gross and the net total each by
    4/9 of the base (salary + bonuses); with no days sold both
    allowance fields are 0. *)
Theorem calculateVacation_sell_ten_days :
  forall salary days dependents unusedVacationDays bonuses : number,
    let sold := Vacation.calculateVacation salary days true dependents
                  unusedVacationDays bonuses in
    let kept := Vacation.calculateVacation salary days false dependents
                  unusedVacationDays bonuses in
    Vacation.inss sold = Vacation.inss kept /\
    Vacation.irrf sold = Vacation.irrf kept /\
    Vacation.abonoPecuniario sold == (salary + bonuses) / 3 /\
    Vacation.abonoOneThird sold == (salary + bonuses) / 9 /\
    Vacation.abonoPecuniario kept == 0 /\
    Vacation.abonoOneThird kept == 0 /\
    Vacation.grossTotal sold
      == Vacation.grossTotal kept + (salary + bonuses) * 4 / 9 /\
    Vacation.netTotal sold
      == Vacation.netTotal kept + (salary + bonuses) * 4 / 9.
Proof.
  intros salary days dependents unusedVacationDays bonuses sold kept.
  subst sold kept. unfold Vacation.calculateVacation. cbn.
  split; [reflexivity | split; [reflexivity |]].
  split; [field | split; [field |]].
  split; [reflexivity | split; [reflexivity |]].
  split; field.
Qed.

(** X9.  A vacation of the full 30 days pays the base itself plus a
    third of it (with no unused days), and is taxed exactly as a
    monthly salary of 4/3 of the base would be by [calculateSalary]:
    same contribution, same income tax. *)
Theorem calculateVacation_full_month_taxed_as_salary :
  forall (salary : number) (sellTenDays : bool)
         (dependents unusedVacationDays bonuses otherDiscounts : number),
    let base := salary + bonuses in
    let v := Vacation.calculateVacation salary 30 sellTenDays dependents
               unusedVacationDays bonuses in
    let v0 := Vacation.calculateVacation salary 30 sellTenDays dependents
                0 bonuses in
    let s := Salary.calculateSalary (base * 4 / 3) dependents
               otherDiscounts in
    Vacation.vacationValue v0 == base /\
    Vacation.oneThirdBonus v0 == base / 3 /\
    Vacation.inss v == Salary.inss s /\
    Vacation.irrf v == Salary.irrf s.
Proof.
  intros salary sellTenDays dependents unusedVacationDays bonuses
    otherDiscounts base v v0 s.
  subst base v v0 s.
  unfold Vacation.calculateVacation, Salary.calculateSalary. cbn.
  assert (E : (salary + bonuses) / 30 * 30
                + (salary + bonuses) / 30 * 30 / 3
              == (salary + bonuses) * 4 / 3) by field.
  split; [field | split; [field | split]].
  - apply calculateINSS_Proper. exact E.
  - apply calculateIRRF_Proper;
      [exact E | apply calculateINSS_Proper; exact E | reflexivity].
Qed.

(** A non-negative rate times a non-negative quantity. *)
Lemma rate_times_nonneg (base k q : number) :
  0 <= base -> 0 < k -> 0 <= q -> 0 <= base / k * q.
Proof.
  intros Hb Hk Hq. apply Qmult_le_0_compat; [| exact Hq].
  apply Qle_shift_div_l; [exact Hk |]. rewrite Qmult_0_l. exact Hb.
Qed.

(** A third, as a product. *)
Lemma third_as_product (x : number) : x / 3 == x * (1 # 3).
Proof. field. Qed.

(** X10.  With a non-negative base (salary + bonuses), days, dependents
    and unused days, the vacation settlement withholds non-negative
    taxes and never more than the current-period amount: the net total
    is at least 62.35% of the gross total and at most the gross
    total. *)
Theorem calculateVacation_net_bounds :
  forall (salary days : number) (sellTenDays : bool)
         (dependents unusedVacationDays bonuses : number),
    0 <= salary + bonuses -> 0 <= days -> 0 <= dependents ->
    0 <= unusedVacationDays ->
    let r := Vacation.calculateVacation salary days sellTenDays dependents
               unusedVacationDays bonuses in
    0 <= Vacation.inss r /\
    0 <= Vacation.irrf r /\
    Vacation.grossTotal r * 0.6235 <= Vacation.netTotal r /\
    Vacation.netTotal r <= Vacation.grossTotal r.
Proof.
  intros salary days sellTenDays dependents unusedVacationDays bonuses
    Hb Hdays Hdep Hu r.
  subst r. unfold Vacation.calculateVacation. cbn.
  assert (H30 : 0 < 30) by reflexivity.
  pose proof (rate_times_nonneg _ 30 days Hb H30 Hdays) as Hv.
  pose proof (rate_times_nonneg _ 30 unusedVacationDays Hb H30 Hu) as Huv.
  assert (H10 : 0 <= 10) by (vm_compute; discriminate).
  pose proof (rate_times_nonneg _ 30 10 Hb H30 H10) as Hab.
  set (v := (salary + bonuses) / 30 * days) in *.
  set (uv := (salary + bonuses) / 30 * unusedVacationDays) in *.
  set (ab := (salary + bonuses) / 30 * 10) in *.
  clearbody v uv ab.
  assert (Hcg : 0 <= v + v / 3) by (rewrite third_as_product; lra).
  destruct (taxes_at_most_share (v + v / 3) dependents Hcg Hdep)
    as (Hi & Hr & Hsum).
  set (c := calculateINSS (v + v / 3)) in *.
  set (t := calculateIRRF (v + v / 3) c dependents) in *.
  clearbody t. clearbody c.
  split; [exact Hi | split; [exact Hr |]].
  rewrite third_as_product in Hsum.
  destruct sellTenDays; cbn [fst snd]; rewrite !third_as_product;
    split; lra.
Qed.

Lemma calculateVacation_net_bounds_witness :
  0 <= 3000 + 500 /\ 0 <= 20 /\ 0 <= 1 /\ 0 <= 5 /\
  (let r := Vacation.calculateVacation 3000 20 true 1 5 500 in
   0 <= Vacation.inss r /\
   0 <= Vacation.irrf r /\
   Vacation.grossTotal r * 0.6235 <= Vacation.netTotal r /\
   Vacation.netTotal r <= Vacation.grossTotal r).
Proof.
  repeat (split; [vm_compute; discriminate |]).
  apply (calculateVacation_net_bounds 3000 20 true 1 5 500);
    vm_compute; discriminate.
Defined.

(** ** Overtime *)

(** X11.  When [monthlyHours] is not 0, the hourly rate times the
    monthly hours gives the salary back, the overtime value is
    salary * overtimeHours * (100 + percentage) / (100 * monthlyHours),
    and the total value is the overtime value. *)
Theorem calculateOvertime_closed_form :
  forall salary monthlyHours overtimeHours percentage : number,
    ~ monthlyHours == 0 ->
    let r := Overtime.calculateOvertime salary monthlyHours overtimeHours
               percentage in
    Overtime.hourlyRate r * monthlyHours == salary /\
    Overtime.overtimeValue r
      == salary * overtimeHours * (100 + percentage)
         / (100 * monthlyHours) /\
    Overtime.totalValue r == Overtime.overtimeValue r.
Proof.
  intros salary monthlyHours overtimeHours percentage Hm r. subst r.
  unfold Overtime.calculateOvertime. cbn.
  split; [field; exact Hm | split; [field; exact Hm | reflexivity]].
Qed.

Lemma calculateOvertime_closed_form_witness :
  ~ 220 == 0 /\
  (let r := Overtime.calculateOvertime 3000 220 10 50 in
   Overtime.hourlyRate r * 220 == 3000 /\
   Overtime.overtimeValue r == 3000 * 10 * (100 + 50) / (100 * 220) /\
   Overtime.totalValue r == Overtime.overtimeValue r).
Proof.
  split; [intro H; vm_compute in H; discriminate H |].
  apply (calculateOvertime_closed_form 3000 220 10 50).
  intro H; vm_compute in H; discriminate H.
Defined.

(** X12.  With a non-negative salary, positive monthly hours and
    non-negative overtime hours and percentage, the overtime value is
    non-negative and at least what the same hours pay at the plain
    hourly rate. *)
Theorem calculateOvertime_at_least_plain_rate :
  forall salary monthlyHours overtimeHours percentage : number,
    0 <= salary -> 0 < monthlyHours -> 0 <= overtimeHours ->
    0 <= percentage ->
    let r := Overtime.calculateOvertime salary monthlyHours overtimeHours
               percentage in
    0 <= Overtime.hourlyRate r /\
    0 <= Overtime.hourlyRate r * overtimeHours <= Overtime.overtimeValue r.
Proof.
  intros salary monthlyHours overtimeHours percentage Hs Hm Hh Hp r.
  subst r. unfold Overtime.calculateOvertime. cbn.
  pose proof (rate_times_nonneg salary monthlyHours overtimeHours Hs Hm Hh)
    as Hplain.
  assert (Hrate : 0 <= salary / monthlyHours).
  { apply Qle_shift_div_l; [exact Hm |]. rewrite Qmult_0_l. exact Hs. }
  set (plain := salary / monthlyHours * overtimeHours) in *.
  assert (Hextra : 0 <= plain * (percentage / 100)).
  { apply Qmult_le_0_compat; [exact Hplain |].
    apply Qle_shift_div_l; [reflexivity |]. rewrite Qmult_0_l. exact Hp. }
  assert (E : salary / monthlyHours * (1 + percentage / 100) * overtimeHours
              == plain + plain * (percentage / 100))
    by (unfold plain; ring).
  split; [exact Hrate | split; [exact Hplain |]].
  rewrite E. lra.
Qed.

Lemma calculateOvertime_at_least_plain_rate_witness :
  0 <= 3000 /\ 0 < 220 /\ 0 <= 10 /\ 0 <= 50 /\
  (let r := Overtime.calculateOvertime 3000 220 10 50 in
   0 <= Overtime.hourlyRate r /\
   0 <= Overtime.hourlyRate r * 10 <= Overtime.overtimeValue r).
Proof.
  split; [vm_compute; discriminate |].
  split; [reflexivity |].
  split; [vm_compute; discriminate |].
  split; [vm_compute; discriminate |].
  apply (calculateOvertime_at_least_plain_rate 3000 220 10 50);
    try (vm_compute; discriminate); reflexivity.
Defined.

(** X13.  When [monthlyHours] is not 0, the overtime value is additive
    in the overtime hours, and no overtime hours pay nothing. *)
Theorem calculateOvertime_additive_in_hours :
  forall salary monthlyHours h1 h2 percentage : number,
    ~ monthlyHours == 0 ->
    Overtime.overtimeValue
      (Overtime.calculateOvertime salary monthlyHours (h1 + h2) percentage)
    == Overtime.overtimeValue
         (Overtime.calculateOvertime salary monthlyHours h1 percentage)
       + Overtime.overtimeValue
           (Overtime.calculateOvertime salary monthlyHours h2 percentage)
    /\
    Overtime.overtimeValue
      (Overtime.calculateOvertime salary monthlyHours 0 percentage) == 0.
Proof.
  intros salary monthlyHours h1 h2 percentage Hm.
  unfold Overtime.calculateOvertime. cbn.
  split; field; exact Hm.
Qed.

Lemma calculateOvertime_additive_in_hours_witness :
  ~ 220 == 0 /\
  (Overtime.overtimeValue (Overtime.calculateOvertime 3000 220 (4 + 6) 50)
   == Overtime.overtimeValue (Overtime.calculateOvertime 3000 220 4 50)
      + Overtime.overtimeValue (Overtime.calculateOvertime 3000 220 6 50)
   /\
   Overtime.overtimeValue (Overtime.calculateOvertime 3000 220 0 50) == 0).
Proof.
  split; [intro H; vm_compute in H; discriminate H |].
  apply (calculateOvertime_additive_in_hours 3000 220 4 6 50).
  intro H; vm_compute in H; discriminate H.
Defined.

(** ** Termination settlement: days, months and totals *)

(** [Math.ceil] of a quotient of integers, in integers. *)
Lemma ceiling_div (n k : Z) :
  (0 < k)%Z -> Qceiling (of_int n / of_int k) = (- ((- n) / k))%Z.
Proof.
  intro Hk. unfold Qceiling, of_int. f_equal.
  rewrite Zdiv_Qdiv. apply Qfloor_comp.
  rewrite inject_Z_opp. field.
  intro H. apply (inject_Z_injective k 0) in H. lia.
Qed.

(** X14.  The elapsed days and the vacation month count do not change
    when the two dates are swapped (the source takes the absolute
    difference of the time stamps). *)
Theorem diffDaysTotal_symmetric :
  forall startDate endDate : Termination.Date,
    Termination.diffDaysTotal startDate endDate
    = Termination.diffDaysTotal endDate startDate /\
    Termination.finalVacationMonths startDate endDate
    = Termination.finalVacationMonths endDate startDate.
Proof.
  intros startDate endDate.
  assert (E : Termination.diffDaysTotal startDate endDate
              = Termination.diffDaysTotal endDate startDate).
  { unfold Termination.diffDaysTotal. cbv zeta. do 3 f_equal. lia. }
  split; [exact E |].
  unfold Termination.finalVacationMonths. cbv zeta. rewrite E. reflexivity.
Qed.

(** X15.  The elapsed days are the least number of whole days of
    86400000 ms that covers the distance of the two time stamps: the
    distance is at most that many days and more than one day less.  A
    distance of exactly k days gives k. *)
Theorem diffDaysTotal_is_ceiling :
  forall startDate endDate : Termination.Date,
    let diffTime :=
      Z.abs (Termination.getTime endDate - Termination.getTime startDate) in
    let d := Termination.diffDaysTotal startDate endDate in
    ((d - 1) * 86400000 < diffTime <= d * 86400000)%Z /\
    (forall k : Z, diffTime = (k * 86400000)%Z -> d = k).
Proof.
  intros startDate endDate diffTime d. subst d.
  unfold Termination.diffDaysTotal. cbv zeta. fold diffTime.
  change (1000 * 60 * 60 * 24)%Z with 86400000%Z.
  rewrite ceiling_div by lia.
  pose proof (Z.div_mod (- diffTime) 86400000 ltac:(lia)) as Hdm.
  pose proof (Z.mod_pos_bound (- diffTime) 86400000 ltac:(lia)) as Hr.
  split; [lia |].
  intros k Hk. lia.
Qed.

(** X16.  When the month fields are calendar months (0 to 11), the
    month count of the 13th salary is between 0 and 12, so for a
    non-negative base the proportional 13th salary is between 0 and one
    base salary. *)
Theorem calculateTermination_thirteenth_bounds :
  forall (salary : number) (startDate endDate : Termination.Date)
         (type : Termination.TerminationType)
         (fgtsBalance unusedVacationDays bonuses : number),
    (0 <= Termination.getMonth startDate <= 11)%Z ->
    (0 <= Termination.getMonth endDate <= 11)%Z ->
    0 <= salary + bonuses ->
    let r := Termination.calculateTermination salary startDate endDate type
               fgtsBalance unusedVacationDays bonuses in
    (0 <= Termination.thirteenthMonths startDate endDate <= 12)%Z /\
    0 <= Termination.proportionalThirteenth r <= salary + bonuses.
Proof.
  intros salary startDate endDate type fgtsBalance unusedVacationDays
    bonuses Hs He Hb r.
  assert (Hm : (0 <= Termination.thirteenthMonths startDate endDate <= 12)%Z).
  { unfold Termination.thirteenthMonths. cbv zeta.
    destruct (Termination.getFullYear endDate
              =? Termination.getFullYear startDate)%Z;
    [ destruct (Termination.getDate startDate <=? 15)%Z,
               (Termination.getDate endDate <? 15)%Z
    | destruct (Termination.getDate endDate >=? 15)%Z ]; lia. }
  split; [exact Hm |].
  subst r. unfold Termination.calculateTermination. cbn.
  set (m := Termination.thirteenthMonths startDate endDate) in *.
  assert (Hq : 0 <= of_int m <= 12).
  { unfold of_int. change (0 : Q) with (inject_Z 0).
    change (12 : Q) with (inject_Z 12).
    rewrite <- !Zle_Qle. exact Hm. }
  clearbody m. set (q := of_int m) in *. clearbody q.
  assert (E : salary + bonuses == (salary + bonuses) / 12 * 12) by field.
  split.
  - apply rate_times_nonneg; [exact Hb | reflexivity | apply Hq].
  - rewrite E at 2. apply Qmult_le_compat_nonneg; [| exact Hq].
    split; [| apply Qle_refl].
    apply Qle_shift_div_l; [reflexivity |]. rewrite Qmult_0_l. exact Hb.
Qed.

Lemma calculateTermination_thirteenth_bounds_witness :
  let startDate := Termination.mkDate 1672531200000 2023 0 1 in
  let endDate := Termination.mkDate 1689811200000 2023 6 20 in
  let r := Termination.calculateTermination 3000 startDate endDate
             Termination.sem_justa_causa 5000 0 0 in
  (0 <= Termination.thirteenthMonths startDate endDate <= 12)%Z /\
  0 <= Termination.proportionalThirteenth r <= 3000 + 0.
Proof.
  cbv zeta.
  apply (calculateTermination_thirteenth_bounds 3000
           (Termination.mkDate 1672531200000 2023 0 1)
           (Termination.mkDate 1689811200000 2023 6 20)
           Termination.sem_justa_causa 5000 0 0).
  - cbn. lia.
  - cbn. lia.
  - vm_compute; discriminate.
Defined.

(** A non-negative integer is a non-negative number. *)
Lemma of_int_nonneg (z : Z) : (0 <= z)%Z -> 0 <= of_int z.
Proof.
  intro H. unfold of_int. change (0 : Q) with (inject_Z 0).
  rewrite <- Zle_Qle. exact H.
Qed.

(** [% 12] of the vacation month count is between 0 and 11. *)
Lemma finalVacationMonths_rem_range (startDate endDate : Termination.Date) :
  (0 <= Z.rem (Termination.finalVacationMonths startDate endDate) 12 <= 11)%Z.
Proof.
  rewrite finalVacationMonths_rem.
  pose proof (Z.mod_pos_bound
                (vacation_months_spec
                   (Termination.diffDaysTotal startDate endDate)) 12
                ltac:(lia)).
  lia.
Qed.

(** X17.  For a non-negative base and no unused days, the proportional
    vacation is between 0 and 11/12 of the base: the month count is
    reduced modulo 12, so it never reaches a full base salary. *)
Theorem calculateTermination_vacation_bounds :
  forall (salary : number) (startDate endDate : Termination.Date)
         (type : Termination.TerminationType)
         (fgtsBalance bonuses : number),
    0 <= salary + bonuses ->
    let r := Termination.calculateTermination salary startDate endDate type
               fgtsBalance 0 bonuses in
    0 <= Termination.proportionalVacation r
      <= (salary + bonuses) / 12 * 11.
Proof.
  intros salary startDate endDate type fgtsBalance bonuses Hb r. subst r.
  unfold Termination.calculateTermination. cbn.
  pose proof (finalVacationMonths_rem_range startDate endDate) as Hm.
  set (m := Z.rem (Termination.finalVacationMonths startDate endDate) 12)
    in *.
  assert (Hq : 0 <= of_int m <= 11).
  { split; [apply of_int_nonneg; lia |].
    unfold of_int. change (11 : Q) with (inject_Z 11).
    rewrite <- Zle_Qle. lia. }
  clearbody m. set (q := of_int m) in *. clearbody q.
  assert (Hrate : 0 <= (salary + bonuses) / 12).
  { apply Qle_shift_div_l; [reflexivity |]. rewrite Qmult_0_l. exact Hb. }
  set (rate := (salary + bonuses) / 12) in *. clearbody rate.
  assert (H1 : 0 <= rate * q) by (apply Qmult_le_0_compat; tauto).
  assert (H2 : rate * q <= rate * 11).
  { apply Qmult_le_compat_nonneg; [split; [exact Hrate | apply Qle_refl] |].
    exact Hq. }
  assert (E : rate * q + (salary + bonuses) / 30 * 0 == rate * q) by field.
  rewrite E. split; assumption.
Qed.

Lemma calculateTermination_vacation_bounds_witness :
  0 <= 3000 + 0 /\
  (let r := Termination.calculateTermination 3000
              (Termination.mkDate 1672531200000 2023 0 1)
              (Termination.mkDate 1689811200000 2023 6 20)
              Termination.pedido_demissao 0 0 0 in
   0 <= Termination.proportionalVacation r <= (3000 + 0) / 12 * 11).
Proof.
  split; [vm_compute; discriminate |].
  apply (calculateTermination_vacation_bounds 3000
           (Termination.mkDate 1672531200000 2023 0 1)
           (Termination.mkDate 1689811200000 2023 6 20)
           Termination.pedido_demissao 0 0).
  vm_compute; discriminate.
Defined.

(** X18.  When the elapsed days are between 345 and 374 the vacation
    month count is 12 and [% 12] takes it to 0: with no unused days,
    the proportional vacation and its third are 0 after a full year. *)
Theorem calculateTermination_vacation_wraps_at_a_year :
  forall (salary : number) (startDate endDate : Termination.Date)
         (type : Termination.TerminationType)
         (fgtsBalance bonuses : number),
    (345 <= Termination.diffDaysTotal startDate endDate <= 374)%Z ->
    let r := Termination.calculateTermination salary startDate endDate type
               fgtsBalance 0 bonuses in
    Termination.finalVacationMonths startDate endDate = 12%Z /\
    Termination.proportionalVacation r == 0 /\
    Termination.vacationOneThird r == 0.
Proof.
  intros salary startDate endDate type fgtsBalance bonuses Hd r. subst r.
  assert (Hm : Termination.finalVacationMonths startDate endDate = 12%Z).
  { rewrite finalVacationMonths_spec. unfold vacation_months_spec.
    set (d := Termination.diffDaysTotal startDate endDate) in *.
    pose proof (Z.div_mod d 30 ltac:(lia)) as Hdm.
    pose proof (Z.mod_pos_bound d 30 ltac:(lia)) as Hr.
    destruct (Z.leb_spec 15 (d mod 30)); lia. }
  split; [exact Hm |].
  unfold Termination.calculateTermination. cbn.
  rewrite Hm. change (of_int (Z.rem 12 12)) with (0 : Q).
  split; field.
Qed.

Lemma calculateTermination_vacation_wraps_at_a_year_witness :
  let startDate := Termination.mkDate 0 1970 0 1 in
  let endDate := Termination.mkDate 31104000000 1970 11 27 in
  (345 <= Termination.diffDaysTotal startDate endDate <= 374)%Z /\
  (let r := Termination.calculateTermination 3000 startDate endDate
              Termination.sem_justa_causa 0 0 0 in
   Termination.finalVacationMonths startDate endDate = 12%Z /\
   Termination.proportionalVacation r == 0 /\
   Termination.vacationOneThird r == 0).
Proof.
  cbv zeta. split; [vm_compute; split; discriminate |].
  apply (calculateTermination_vacation_wraps_at_a_year 3000
           (Termination.mkDate 0 1970 0 1)
           (Termination.mkDate 31104000000 1970 11 27)
           Termination.sem_justa_causa 0 0).
  vm_compute; split; discriminate.
Defined.

(** X19.  The gross total of the termination settlement is the sum of
    the six amounts the result lists (salary balance, proportional
    13th salary, [proportionalVacation], [vacationOneThird], notice
    period and fund fine): the unused-vacation payout reaches the total
    once, through the two vacation fields. *)
Theorem calculateTermination_totals_add_up :
  forall (salary : number) (startDate endDate : Termination.Date)
         (type : Termination.TerminationType)
         (fgtsBalance unusedVacationDays bonuses : number),
    let r := Termination.calculateTermination salary startDate endDate type
               fgtsBalance unusedVacationDays bonuses in
    Termination.grossTotal r
      == Termination.salaryBalance r + Termination.proportionalThirteenth r
         + Termination.proportionalVacation r + Termination.vacationOneThird r
         + Termination.noticePeriod r + Termination.fgtsFine r.
Proof.
  intros salary startDate endDate type fgtsBalance unusedVacationDays
    bonuses r.
  subst r. unfold Termination.calculateTermination. cbn. ring.
Qed.

(** X20.  The termination type changes the notice period, the fund
    fine and the two totals only.  Resignation gives the very result
    of dismissal with just cause; against it, dismissal without just
    cause adds base + 0.4 * fgtsBalance to the gross and to the net
    total, and mutual agreement adds half of that
    (0.5 * base + 0.2 * fgtsBalance), with base = salary + bonuses. *)
Theorem calculateTermination_by_type :
  forall (salary : number) (startDate endDate : Termination.Date)
         (fgtsBalance unusedVacationDays bonuses : number),
    let base := salary + bonuses in
    let result type :=
      Termination.calculateTermination salary startDate endDate type
        fgtsBalance unusedVacationDays bonuses in
    result Termination.pedido_demissao = result Termination.com_justa_causa /\
    Termination.grossTotal (result Termination.sem_justa_causa)
      == Termination.grossTotal (result Termination.com_justa_causa)
         + base + 0.4 * fgtsBalance /\
    Termination.netTotal (result Termination.sem_justa_causa)
      == Termination.netTotal (result Termination.com_justa_causa)
         + base + 0.4 * fgtsBalance /\
    Termination.grossTotal (result Termination.comum_acordo)
      == Termination.grossTotal (result Termination.com_justa_causa)
         + 0.5 * base + 0.2 * fgtsBalance /\
    Termination.netTotal (result Termination.comum_acordo)
      == Termination.netTotal (result Termination.com_justa_causa)
         + 0.5 * base + 0.2 * fgtsBalance.
Proof.
  intros salary startDate endDate fgtsBalance unusedVacationDays bonuses
    base result.
  subst base result. unfold Termination.calculateTermination. cbn.
  split; [reflexivity |].
  split; [ring | split; [ring | split; ring]].
Qed.

(** The indemnities of non-negative amounts are non-negative. *)
Lemma indemnities_nonneg (type : Termination.TerminationType)
    (baseSalary fgtsBalance : number) :
  0 <= baseSalary -> 0 <= fgtsBalance ->
  0 <= fst (Termination.indemnities type baseSalary fgtsBalance) /\
  0 <= snd (Termination.indemnities type baseSalary fgtsBalance).
Proof.
  intros Hb Hf. destruct type; cbn; split; lra.
Qed.

(** X21.  With a non-negative base, fund balance and unused days and a
    non-negative end day, the termination settlement withholds
    non-negative taxes of at most 37.65% of the taxed amount (salary
    balance plus proportional 13th salary), so the net total is between
    0 and the gross total. *)
Theorem calculateTermination_net_bounds :
  forall (salary : number) (startDate endDate : Termination.Date)
         (type : Termination.TerminationType)
         (fgtsBalance unusedVacationDays bonuses : number),
    0 <= salary + bonuses -> (0 <= Termination.getDate endDate)%Z ->
    0 <= fgtsBalance -> 0 <= unusedVacationDays ->
    let r := Termination.calculateTermination salary startDate endDate type
               fgtsBalance unusedVacationDays bonuses in
    0 <= Termination.inss r /\
    0 <= Termination.irrf r /\
    Termination.inss r + Termination.irrf r
      <= (Termination.salaryBalance r + Termination.proportionalThirteenth r)
         * 0.3765 /\
    0 <= Termination.netTotal r <= Termination.grossTotal r.
Proof.
  intros salary startDate endDate type fgtsBalance unusedVacationDays
    bonuses Hb Hday Hf Hu r.
  subst r. unfold Termination.calculateTermination. cbn.
  assert (H30 : 0 < 30) by reflexivity.
  assert (H12 : 0 < 12) by reflexivity.
  pose proof (rate_times_nonneg _ 30 _ Hb H30 (of_int_nonneg _ Hday)) as Hsb.
  assert (Hm13 : (0 <= Termination.thirteenthMonths startDate endDate)%Z)
    by (unfold Termination.thirteenthMonths; cbv zeta; apply Z.le_max_l).
  pose proof (rate_times_nonneg _ 12 _ Hb H12 (of_int_nonneg _ Hm13)) as H13.
  pose proof (finalVacationMonths_rem_range startDate endDate) as [Hrem _].
  pose proof (rate_times_nonneg _ 12 _ Hb H12 (of_int_nonneg _ Hrem)) as Hpv.
  pose proof (rate_times_nonneg _ 30 _ Hb H30 Hu) as Huv.
  destruct (indemnities_nonneg type _ _ Hb Hf) as [Hn Hfine].
  set (sb := (salary + bonuses) / 30 * of_int (Termination.getDate endDate))
    in *.
  set (p13 := (salary + bonuses) / 12
              * of_int (Termination.thirteenthMonths startDate endDate)) in *.
  set (pv := (salary + bonuses) / 12
             * of_int (Z.rem (Termination.finalVacationMonths startDate
                                endDate) 12)) in *.
  set (uv := (salary + bonuses) / 30 * unusedVacationDays) in *.
  set (np := fst (Termination.indemnities type (salary + bonuses)
                    fgtsBalance)) in *.
  set (ff := snd (Termination.indemnities type (salary + bonuses)
                    fgtsBalance)) in *.
  clearbody sb p13 pv uv np ff.
  assert (Hz : 0 <= 0) by apply Qle_refl.
  assert (Htax : 0 <= sb + p13) by lra.
  destruct (taxes_at_most_share (sb + p13) 0 Htax Hz) as (Hi & Hr & Hsum).
  set (c := calculateINSS (sb + p13)) in *.
  set (t := calculateIRRF (sb + p13) c 0) in *.
  clearbody t. clearbody c.
  split; [exact Hi | split; [exact Hr | split; [exact Hsum |]]].
  rewrite !third_as_product. split; lra.
Qed.

Lemma calculateTermination_net_bounds_witness :
  let startDate := Termination.mkDate 1672531200000 2023 0 1 in
  let endDate := Termination.mkDate 1689811200000 2023 6 20 in
  0 <= 3000 + 200 /\ (0 <= Termination.getDate endDate)%Z /\
  0 <= 5000 /\ 0 <= 10 /\
  (let r := Termination.calculateTermination 3000 startDate endDate
              Termination.comum_acordo 5000 10 200 in
   0 <= Termination.inss r /\
   0 <= Termination.irrf r /\
   Termination.inss r + Termination.irrf r
     <= (Termination.salaryBalance r + Termination.proportionalThirteenth r)
        * 0.3765 /\
   0 <= Termination.netTotal r <= Termination.grossTotal r).
Proof.
  cbv zeta.
  split; [vm_compute; discriminate |].
  split; [cbn; lia |].
  split; [vm_compute; discriminate |].
  split; [vm_compute; discriminate |].
  apply (calculateTermination_net_bounds 3000
           (Termination.mkDate 1672531200000 2023 0 1)
           (Termination.mkDate 1689811200000 2023 6 20)
           Termination.comum_acordo 5000 10 200);
    vm_compute; discriminate.
Defined.

(** ** The exemption threshold and the calendar cases *)

(** X22.  The income tax is 0 exactly when the taxable base is at most
    2259.20, and strictly positive exactly above it. *)
Theorem calculateIRRF_zero_iff_exempt :
  forall salary inss dependents : number,
    (calculateIRRF salary inss dependents == 0
     <-> taxableBase salary inss dependents <= 2259.20) /\
    (0 < calculateIRRF salary inss dependents
     <-> 2259.20 < taxableBase salary inss dependents).
Proof.
  intros salary inss dependents. unfold calculateIRRF, taxableBase.
  cbv zeta. set (base := salary - inss - dependents * 189.59).
  clearbody base.
  tiers; (split; split; intro H; lra).
Qed.



(** X24.  When the two dates are in the same year and the end month is
    before the start month (the dates are reversed), the clamp makes
    the month count 0 and the proportional 13th salary is 0. *)
Theorem calculateTermination_reversed_months_no_thirteenth :
  forall (salary : number) (startDate endDate : Termination.Date)
         (type : Termination.TerminationType)
         (fgtsBalance unusedVacationDays bonuses : number),
    Termination.getFullYear endDate = Termination.getFullYear startDate ->
    (Termination.getMonth endDate < Termination.getMonth startDate)%Z ->
    let r := Termination.calculateTermination salary startDate endDate type
               fgtsBalance unusedVacationDays bonuses in
    Termination.thirteenthMonths startDate endDate = 0%Z /\
    Termination.proportionalThirteenth r == 0.
Proof.
  intros salary startDate endDate type fgtsBalance unusedVacationDays
    bonuses Hy Hm r.
  assert (E : Termination.thirteenthMonths startDate endDate = 0%Z).
  { unfold Termination.thirteenthMonths. cbv zeta.
    apply Z.eqb_eq in Hy. rewrite Hy.
    destruct (Termination.getDate startDate <=? 15)%Z,
             (Termination.getDate endDate <? 15)%Z; lia. }
  split; [exact E |].
  subst r. unfold Termination.calculateTermination. cbn.
  rewrite E. change (of_int 0) with (0 : Q). ring.
Qed.

Lemma calculateTermination_reversed_months_no_thirteenth_witness :
  let startDate := Termination.mkDate 1689811200000 2023 6 20 in
  let endDate := Termination.mkDate 1672531200000 2023 0 1 in
  Termination.getFullYear endDate = Termination.getFullYear startDate /\
  (Termination.getMonth endDate < Termination.getMonth startDate)%Z /\
  (let r := Termination.calculateTermination 3000 startDate endDate
              Termination.sem_justa_causa 0 0 0 in
   Termination.thirteenthMonths startDate endDate = 0%Z /\
   Termination.proportionalThirteenth r == 0).
Proof.
  cbv zeta. split; [reflexivity | split; [cbn; lia |]].
  apply (calculateTermination_reversed_months_no_thirteenth 3000
           (Termination.mkDate 1689811200000 2023 6 20)
           (Termination.mkDate 1672531200000 2023 0 1)
           Termination.sem_justa_causa 0 0 0).
  - reflexivity.
  - cbn; lia.
Defined.
